(** * The contract deployer allow list precompile (precompile/allow_list.go)

    A shallow embedding of the allow list role model, of its state-database
    adapter and of the two stateful precompiles [modifyAllowListPrecompile]
    and [readAllowListPrecompile], followed by the properties of the
    specification that concern them.

    Conventions of the embedding:
    - a Go byte is a [Byte.byte]; a Go array [[n]byte] is a [vec byte n], so
      that the length is part of the type as it is in Go; a Go slice
      [[]byte] is a [list byte];
    - a [uint64] is a [Z] in the range [0 <= z < 2^64], its arithmetic is
      written with the wrap-around made explicit ([wrap64]);
    - the state database behind [evm.GetStateDB()] is threaded explicitly:
      a precompile takes the database and returns the database it leaves
      behind, next to the three results of the Go function;
    - an [error] built by [fmt.Errorf] is a constructor of an inductive type
      that records which statement built it and the values it formats;
    - [log.Info] writes to the node's log and never to the state database;
      it is left out of the embedding. *)

From Stdlib Require Import ZArith List Lia.
From Stdlib Require Import Strings.Byte.
From stdpp Require Import base decidable countable list vector gmap.

Local Open Scope Z_scope.

(** ** Bytes and fixed-size byte arrays *)

#[global] Instance byte_eq_dec : EqDecision byte := Byte.byte_eq_dec.

#[global] Instance byte_countable : Countable byte :=
  inj_countable Byte.to_N Byte.of_N Byte.of_to_N.

(** [array_lit n l] is the Go array of [n] bytes that holds the bytes of [l]
    from index 0 on and zero after them; elements of [l] beyond index [n-1]
    are dropped.  It is both the composite literal [[n]byte{l...}] and the
    result of [copy(a[:], l)] on a zeroed array [a]. *)
Fixpoint array_lit (n : nat) (l : list byte) : vec byte n :=
  match n with
  | O => [#]
  | S n' =>
      match l with
      | [] => x00 ::: array_lit n' []
      | b :: l' => b ::: array_lit n' l'
      end
  end.

(** Extensional facts about [array_lit]. *)
Lemma array_lit_vec_to_list (n : nat) (v : vec byte n) :
  array_lit n (vec_to_list v) = v.
Proof.
  induction v as [|b n v IH]; simpl.
  - reflexivity.
  - now rewrite IH.
Qed.

Lemma vec_to_list_array_lit (n : nat) (l : list byte) :
  length l = n -> vec_to_list (array_lit n l) = l.
Proof.
  revert l; induction n as [|n IH]; intros [|b l] Hlen; simpl in *;
    try discriminate; try reflexivity.
  f_equal. apply IH. congruence.
Qed.

(** Fixed-size byte arrays are keys of the state database: they are countable
    through their list of bytes. *)
#[global] Instance array_countable (n : nat) : Countable (vec byte n) | 0 :=
  inj_countable'
    (fun v : vec byte n => vec_to_list v) (array_lit n)
    (array_lit_vec_to_list n).

(** ** The types of go-ethereum's [common] package used by the allow list *)

Module common.

Definition AddressLength : nat := 20.
Definition HashLength : nat := 32.

(** [type Address [AddressLength]byte] and [type Hash [HashLength]byte]. *)
Definition Address : Type := vec byte AddressLength.
Definition Hash : Type := vec byte HashLength.

(** [SetBytes]: "If b is larger than len(h), b will be cropped from the
    left", then [copy(h[len(h)-len(b):], b)]: the bytes are right-aligned
    in a zeroed array. *)
Definition SetBytes (n : nat) (b : list byte) : vec byte n :=
  let b' := if decide (n < length b)%nat then drop (length b - n) b else b in
  array_lit n (replicate (n - length b') x00 ++ b').

Definition BytesToAddress (b : list byte) : Address := SetBytes AddressLength b.
Definition BytesToHash (b : list byte) : Hash := SetBytes HashLength b.

(** [Hash.Bytes] and the slice expressions [a[:]]. *)
Definition Bytes {n : nat} (a : vec byte n) : list byte := vec_to_list a.

End common.

Import common.

(** ** The role model *)

(** [type AllowListRole common.Hash] *)
Definition AllowListRole : Type := Hash.

(** The composite literals [common.Hash{}], [common.Hash{1}] and
    [common.Hash{2}]: an array literal initialises the listed elements from
    index 0, the others are zero. *)
Definition None_role : AllowListRole := array_lit HashLength [].
Definition Deployer : AllowListRole := array_lit HashLength [x01].
Definition Admin : AllowListRole := array_lit HashLength [x02].

(** [switch s { case None, Deployer, Admin: return true; default: return false }] *)
Definition Valid (s : AllowListRole) : bool :=
  bool_decide (s = None_role) || bool_decide (s = Deployer) || bool_decide (s = Admin).

Definition IsAdmin (s : AllowListRole) : bool :=
  bool_decide (s = Admin).

Definition CanDeploy (s : AllowListRole) : bool :=
  bool_decide (s = Deployer) || bool_decide (s = Admin).

(** The encodings the specification describes: all bytes zero except the last
    one, which holds the number [b]. *)
Definition last_byte_hash (b : byte) : Hash :=
  array_lit HashLength (replicate (HashLength - 1) x00 ++ [b]).

(** The encodings the code uses: all bytes zero except the first one. *)
Definition first_byte_hash (b : byte) : Hash :=
  array_lit HashLength (b :: replicate (HashLength - 1) x00).

(** ** Unsigned 64-bit integers *)

Definition uint64_range (z : Z) : Prop := 0 <= z < 2 ^ 64.

(** The result of a [uint64] operation is taken modulo [2^64]. *)
Definition wrap64 (z : Z) : Z := z mod 2 ^ 64.

(** ** What the allow list takes from the rest of the package *)

(** The two gas costs and the reserved contract address are declared in
    another file of the package (params.go); the allow list only names them.
    They are parameters of the embedding.  The costs are constants that Go
    compares with a [uint64], hence representable in 64 bits. *)
Class PrecompileParams : Type := {
  ModifyAllowListGasCost : Z;
  ReadAllowListGasCost : Z;
  ModifyAllowListAddress : Address;
  ModifyAllowListGasCost_range : uint64_range ModifyAllowListGasCost;
  ReadAllowListGasCost_range : uint64_range ReadAllowListGasCost
}.

(** Modelled from the spec: the [StateDB] interface of the host, whose
    implementation is outside allow_list.go.  The specification gives its
    contract: [GetValue(contractAddress, key)] returns a fixed-width value,
    the zero value if unset, and [SetValue(contractAddress, key, value)]
    writes one slot and never fails.  A database is a finite map from
    (contract address, key) to the stored value. *)
Abbreviation StateDB := (gmap (Address * Hash) Hash).

Definition GetState (state : StateDB) (addr : Address) (key : Hash) : Hash :=
  match state !! (addr, key) with
  | Some value => value
  | None => array_lit HashLength []
  end.

Definition SetState (state : StateDB) (addr : Address) (key value : Hash) : StateDB :=
  <[(addr, key) := value]> state.

(** Modelled from the spec: [CreateAddressKey], a helper of the package that
    is outside allow_list.go.  The specification asks for "a fixed-width
    value deterministically derived from the address alone (e.g.,
    left/zero-padded into the key's width)": the bytes of the address are
    left-aligned in the key and the rest of the key is zero. *)
Definition CreateAddressKey (address : Address) : Hash :=
  array_lit HashLength (Bytes address).

(** ** Errors *)

(** The errors of [UnpackModifyAllowList]. *)
Inductive unpack_error : Type :=
| UnexpectedLength (got want : nat)
    (* "unexpected address length: %d not %d" *)
| InvalidStatus (status : AllowListRole).
    (* "invalid status used as input for allow list precompile: %v" *)

(** The errors of [PackModifyAllowList] and of the two [Run] methods, one
    constructor per [fmt.Errorf]. *)
Inductive error : Type :=
| UnexpectedStatus (status : AllowListRole)
    (* "unexpected status: %d" *)
| ExceedsGasAllowance (cost supplied : Z)
    (* "running allow list exceeds gas allowance (%d) < (%d)" *)
| ModifyInReadOnly
    (* "cannot modify allow list in read only" *)
| CallerCannotModify (callerAddr : Address)
    (* "caller %s cannot modify allow list" *)
| FailedToUnpack (e : unpack_error)
    (* "failed to unpack modify allow list input: %w" *)
| InvalidReadInputLength (got : nat).
    (* "invalid input length for read allow list: %d" *)

(** The error taxonomy of the specification. *)
Inductive error_kind : Type :=
| InsufficientGas
| ReadOnlyViolation
| Unauthorized
| MalformedInput.

Definition kind_of (e : error) : error_kind :=
  match e with
  | UnexpectedStatus _ => MalformedInput
  | ExceedsGasAllowance _ _ => InsufficientGas
  | ModifyInReadOnly => ReadOnlyViolation
  | CallerCannotModify _ => Unauthorized
  | FailedToUnpack _ => MalformedInput
  | InvalidReadInputLength _ => MalformedInput
  end.

(** A Go function that returns [(value, error)]. *)
Inductive result (E A : Type) : Type :=
| Ok (a : A)
| Err (e : E).
Arguments Ok {E A} a.
Arguments Err {E A} e.

(** The three results of [Run]: [ret] is [None] for a nil slice. *)
Record RunResult : Type := mkRunResult {
  ret : option (list byte);
  remainingGas : Z;
  err : option error
}.

(** [AllowListConfig]; the timestamp is a [*big.Int]. *)
Record AllowListConfig : Type := mkAllowListConfig {
  BlockTimestamp : Z;
  AllowListAdmins : list Address
}.

Definition Timestamp (c : AllowListConfig) : Z := BlockTimestamp c.

(** ** The store adapter, the input codec and the two precompiles *)

Section AllowList.
Context `{PrecompileParams}.

(** [const modifyAllowListInputLength = common.AddressLength + common.HashLength] *)
Definition modifyAllowListInputLength : nat := (AddressLength + HashLength)%nat.

(** [Configure]: one [SetState] per address of [AllowListAdmins], in order. *)
Definition Configure (c : AllowListConfig) (state : StateDB) : StateDB :=
  fold_left
    (fun st adminAddr =>
       SetState st ModifyAllowListAddress (CreateAddressKey adminAddr) Admin)
    (AllowListAdmins c) state.

Definition GetAllowListStatus (state : StateDB) (address : Address) : AllowListRole :=
  let stateSlot := CreateAddressKey address in
  let res := GetState state ModifyAllowListAddress stateSlot in
  res.

(** [input := make([]byte, modifyAllowListInputLength)], then the address
    is copied to its front and the status after it. *)
Definition PackModifyAllowList (address : Address) (status : AllowListRole)
  : result error (list byte) :=
  if negb (Valid status) then Err (UnexpectedStatus status)
  else Ok (Bytes address ++ Bytes status).

Definition UnpackModifyAllowList (input : list byte)
  : result unpack_error (Address * Hash) :=
  if negb (bool_decide (length input = modifyAllowListInputLength)) then
    Err (UnexpectedLength (length input) modifyAllowListInputLength)
  else
    let address := BytesToAddress (take AddressLength input) in
    let statusHash := BytesToHash (drop AddressLength input) in
    let status : AllowListRole := statusHash in
    if negb (Valid status) then Err (InvalidStatus status)
    else Ok (address, statusHash).

Definition setAllowListStatus (stateDB : StateDB) (address : Address) (status : Hash)
  : StateDB :=
  let addressKey := CreateAddressKey address in
  SetState stateDB ModifyAllowListAddress addressKey status.

(** [(mal *modifyAllowListPrecompile) Run]; [evm] stands for
    [evm.GetStateDB()], and the second component of the result is the
    database after the call. *)
Definition modifyAllowListPrecompile_Run
    (evm : StateDB) (callerAddr addr : Address) (input : list byte)
    (suppliedGas : Z) (readOnly : bool) : RunResult * StateDB :=
  if suppliedGas <? ModifyAllowListGasCost then
    (mkRunResult None 0
       (Some (ExceedsGasAllowance ModifyAllowListGasCost suppliedGas)), evm)
  else
    let remainingGas := wrap64 (suppliedGas - ModifyAllowListGasCost) in
    if readOnly then
      (mkRunResult None remainingGas (Some ModifyInReadOnly), evm)
    else
      let callerStatus := GetAllowListStatus evm callerAddr in
      if negb (IsAdmin callerStatus) then
        (mkRunResult None remainingGas (Some (CallerCannotModify callerAddr)), evm)
      else
        match UnpackModifyAllowList input with
        | Err e =>
            (mkRunResult None remainingGas (Some (FailedToUnpack e)), evm)
        | Ok (address, status) =>
            (mkRunResult (Some []) remainingGas None,
             setAllowListStatus evm address status)
        end.

Definition modifyAllowListPrecompile_RequiredGas (input : list byte) : Z :=
  ModifyAllowListGasCost.

(** [(ral *readAllowListPrecompile) Run]. *)
Definition readAllowListPrecompile_Run
    (evm : StateDB) (callerAddr addr : Address) (input : list byte)
    (suppliedGas : Z) (readOnly : bool) : RunResult * StateDB :=
  if suppliedGas <? ReadAllowListGasCost then
    (mkRunResult None 0
       (Some (ExceedsGasAllowance ReadAllowListGasCost suppliedGas)), evm)
  else
    let remainingGas := wrap64 (suppliedGas - ReadAllowListGasCost) in
    if negb (bool_decide (length input = AddressLength)) then
      (mkRunResult None remainingGas
         (Some (InvalidReadInputLength (length input))), evm)
    else
      let readAddress := BytesToAddress input in
      let roleBytes := Bytes (GetAllowListStatus evm readAddress) in
      (mkRunResult (Some roleBytes) remainingGas None, evm).

Definition readAllowListPrecompile_RequiredGas (input : list byte) : Z :=
  ReadAllowListGasCost.

(** The operations through which this file reaches the state database. *)
Inductive operation : Type :=
| OpConfigure (c : AllowListConfig)
| OpModify (callerAddr addr : Address) (input : list byte)
           (suppliedGas : Z) (readOnly : bool)
| OpRead (callerAddr addr : Address) (input : list byte)
         (suppliedGas : Z) (readOnly : bool).

Definition run_operation (state : StateDB) (op : operation) : StateDB :=
  match op with
  | OpConfigure c => Configure c state
  | OpModify callerAddr addr input suppliedGas readOnly =>
      snd (modifyAllowListPrecompile_Run state callerAddr addr input suppliedGas readOnly)
  | OpRead callerAddr addr input suppliedGas readOnly =>
      snd (readAllowListPrecompile_Run state callerAddr addr input suppliedGas readOnly)
  end.

End AllowList.

(** [fails_with r k]: the call returned a nil output and an error of kind
    [k]. *)
Definition fails_with (r : RunResult) (k : error_kind) : Prop :=
  ret r = None /\ exists e, err r = Some e /\ kind_of e = k.

(** [roles_valid state]: every slot stored under the allow list's contract
    address holds one of the three role constants. *)
Definition roles_valid `{PrecompileParams} (state : StateDB) : Prop :=
  forall (key value : Hash),
    state !! (ModifyAllowListAddress, key) = Some value -> Valid value = true.

(** ** Sample values, to run the embedding *)

Definition sample_params : PrecompileParams := {|
  ModifyAllowListGasCost := 20000;
  ReadAllowListGasCost := 5000;
  ModifyAllowListAddress := array_lit AddressLength [x02];
  ModifyAllowListGasCost_range :=
    ltac:(vm_compute; split; [discriminate | reflexivity]);
  ReadAllowListGasCost_range :=
    ltac:(vm_compute; split; [discriminate | reflexivity])
|}.

Definition sample_admin : Address := array_lit AddressLength [xaa].
Definition sample_target : Address := array_lit AddressLength [xbb].
Definition sample_other : Address := array_lit AddressLength [xcc].

(** The database after [Configure] with [sample_admin] as only admin. *)
Definition sample_state : StateDB :=
  Configure (H := sample_params) (mkAllowListConfig 0 [sample_admin]) ∅.

(** A database in which [sample_target] is a deployer. *)
Definition sample_state_deployer : StateDB :=
  setAllowListStatus (H := sample_params) sample_state sample_target Deployer.

(** [unprivileged state op]: [op] is a call of one of the two precompiles, and
    if it is a call of the modify precompile, its caller is not an admin in
    [state]. *)
Definition unprivileged `{PrecompileParams} (state : StateDB) (op : operation)
  : Prop :=
  match op with
  | OpConfigure _ => False
  | OpModify callerAddr _ _ _ _ => GetAllowListStatus state callerAddr <> Admin
  | OpRead _ _ _ _ _ => True
  end.

(** * Properties *)

(** ** Byte arrays and the codec of go-ethereum *)

(** [SetBytes] on a short and on a long slice: padding on the left, cropping
    from the left. *)
Example SetBytes_short : Bytes (SetBytes 4 [x01; x02]) = [x00; x00; x01; x02].
Proof. reflexivity. Qed.

Example SetBytes_long :
  Bytes (SetBytes 4 [x01; x02; x03; x04; x05]) = [x02; x03; x04; x05].
Proof. reflexivity. Qed.

Lemma length_Bytes {n : nat} (a : vec byte n) : length (Bytes a) = n.
Proof. apply length_vec_to_list. Qed.

(** On a slice of exactly [n] bytes [SetBytes] neither crops nor pads. *)
Lemma SetBytes_exact (n : nat) (b : list byte) :
  length b = n -> SetBytes n b = array_lit n b.
Proof.
  intros Hlen. unfold SetBytes.
  destruct (decide (n < length b)%nat) as [Hlt|_]; [lia|].
  rewrite Hlen, Nat.sub_diag. reflexivity.
Qed.

Lemma SetBytes_Bytes {n : nat} (a : vec byte n) : SetBytes n (Bytes a) = a.
Proof.
  rewrite SetBytes_exact by apply length_Bytes.
  apply array_lit_vec_to_list.
Qed.

Lemma Bytes_SetBytes (n : nat) (b : list byte) :
  length b = n -> Bytes (SetBytes n b) = b.
Proof.
  intros Hlen. rewrite SetBytes_exact by assumption.
  now apply vec_to_list_array_lit.
Qed.

Lemma Bytes_inj {n : nat} (a b : vec byte n) : Bytes a = Bytes b -> a = b.
Proof. apply vec_to_list_inj2. Qed.

Lemma take_packed (address : Address) (status : Hash) :
  take AddressLength (Bytes address ++ Bytes status) = Bytes address.
Proof.
  apply take_app_length'. symmetry. apply length_Bytes.
Qed.

Lemma drop_packed (address : Address) (status : Hash) :
  drop AddressLength (Bytes address ++ Bytes status) = Bytes status.
Proof.
  apply drop_app_length'. symmetry. apply length_Bytes.
Qed.

Lemma length_packed (address : Address) (status : Hash) :
  length (Bytes address ++ Bytes status) = (AddressLength + HashLength)%nat.
Proof. rewrite length_app, !length_Bytes. reflexivity. Qed.

(** ** The role model *)

Lemma Valid_None_role : Valid None_role = true.
Proof. reflexivity. Qed.

Lemma Valid_Deployer : Valid Deployer = true.
Proof. reflexivity. Qed.

Lemma Valid_Admin : Valid Admin = true.
Proof. reflexivity. Qed.

Lemma Valid_spec (s : AllowListRole) :
  Valid s = true <-> s = None_role \/ s = Deployer \/ s = Admin.
Proof.
  unfold Valid. rewrite !orb_true_iff, !bool_decide_eq_true. tauto.
Qed.

Lemma IsAdmin_spec (s : AllowListRole) : IsAdmin s = true <-> s = Admin.
Proof. unfold IsAdmin. apply bool_decide_eq_true. Qed.

Lemma IsAdmin_None_role : IsAdmin None_role = false.
Proof. reflexivity. Qed.

Lemma IsAdmin_Deployer : IsAdmin Deployer = false.
Proof. reflexivity. Qed.

(** A hash whose last byte is not zero and whose other bytes are zero is
    none of the three role constants. *)
Lemma Valid_last_byte_hash (b : byte) :
  b <> x00 -> Valid (last_byte_hash b) = false.
Proof.
  intros Hb. destruct (Valid (last_byte_hash b)) eqn:Hv; [|reflexivity].
  apply Valid_spec in Hv.
  destruct Hv as [Hv|[Hv|Hv]]; apply (f_equal vec_to_list) in Hv;
    simpl in Hv; congruence.
Qed.

(** ** Unsigned arithmetic *)

Lemma wrap64_sub (g c : Z) :
  uint64_range g -> uint64_range c -> c <= g -> wrap64 (g - c) = g - c.
Proof.
  unfold uint64_range, wrap64. intros Hg Hc Hle.
  apply Z.mod_small. lia.
Qed.

(** ** The state database *)

Lemma GetState_SetState_eq (state : StateDB) (addr : Address) (key value : Hash) :
  GetState (SetState state addr key value) addr key = value.
Proof. unfold GetState, SetState. now rewrite lookup_insert_eq. Qed.

Lemma GetState_SetState_ne (state : StateDB) (addr addr' : Address)
    (key key' value : Hash) :
  (addr, key) <> (addr', key') ->
  GetState (SetState state addr key value) addr' key' = GetState state addr' key'.
Proof.
  intros Hne. unfold GetState, SetState. now rewrite lookup_insert_ne.
Qed.

Lemma GetState_unset (state : StateDB) (addr : Address) (key : Hash) :
  state !! (addr, key) = None -> GetState state addr key = None_role.
Proof. intros Hnone. unfold GetState. now rewrite Hnone. Qed.

(** An array copied to the front of a longer zeroed array is found back as
    the prefix of that array. *)
Lemma take_array_lit_pad (n m : nat) (v : vec byte n) :
  take n (vec_to_list (array_lit (n + m) (vec_to_list v))) = vec_to_list v.
Proof.
  induction v as [|b n v IH]; simpl.
  - reflexivity.
  - f_equal. exact IH.
Qed.

(** The key of an address determines the address. *)
Lemma CreateAddressKey_inj (a b : Address) :
  CreateAddressKey a = CreateAddressKey b -> a = b.
Proof.
  unfold CreateAddressKey, Bytes. intros Heq.
  apply vec_to_list_inj2.
  rewrite <- (take_array_lit_pad AddressLength 12 a).
  rewrite <- (take_array_lit_pad AddressLength 12 b).
  change (AddressLength + 12)%nat with HashLength.
  now rewrite Heq.
Qed.

Section Properties.
Context `{PrecompileParams}.

(** ** The store adapter *)

Lemma GetAllowListStatus_set_eq (state : StateDB) (address : Address) (status : Hash) :
  GetAllowListStatus (setAllowListStatus state address status) address = status.
Proof.
  unfold GetAllowListStatus, setAllowListStatus. apply GetState_SetState_eq.
Qed.

Lemma GetAllowListStatus_set_ne (state : StateDB) (address other : Address)
    (status : Hash) :
  other <> address ->
  GetAllowListStatus (setAllowListStatus state address status) other
  = GetAllowListStatus state other.
Proof.
  intros Hne. unfold GetAllowListStatus, setAllowListStatus.
  apply GetState_SetState_ne.
  intros Heq. injection Heq as Hkey.
  apply CreateAddressKey_inj in Hkey. congruence.
Qed.

(** ** The input codec *)

Lemma UnpackModifyAllowList_wrong_length (input : list byte) :
  length input <> modifyAllowListInputLength ->
  UnpackModifyAllowList input
  = Err (UnexpectedLength (length input) modifyAllowListInputLength).
Proof.
  intros Hlen. unfold UnpackModifyAllowList.
  now rewrite bool_decide_eq_false_2.
Qed.

Lemma UnpackModifyAllowList_packed (address : Address) (status : Hash) :
  UnpackModifyAllowList (Bytes address ++ Bytes status)
  = if Valid status then Ok (address, status) else Err (InvalidStatus status).
Proof.
  unfold UnpackModifyAllowList.
  rewrite bool_decide_eq_true_2 by apply length_packed.
  rewrite take_packed, drop_packed.
  unfold BytesToAddress, BytesToHash. rewrite !SetBytes_Bytes.
  simpl. now destruct (Valid status).
Qed.

Lemma UnpackModifyAllowList_Ok (input : list byte) (address : Address) (status : Hash) :
  UnpackModifyAllowList input = Ok (address, status) ->
  Valid status = true /\ input = Bytes address ++ Bytes status.
Proof.
  unfold UnpackModifyAllowList.
  destruct (bool_decide (length input = modifyAllowListInputLength)) eqn:Hlen;
    simpl; [|discriminate].
  apply bool_decide_eq_true in Hlen.
  destruct (Valid (BytesToHash (drop AddressLength input))) eqn:Hv;
    simpl; [|discriminate].
  intros Heq. injection Heq as <- <-. split; [exact Hv|].
  unfold BytesToAddress, BytesToHash.
  rewrite !Bytes_SetBytes.
  - symmetry. apply take_drop.
  - rewrite length_drop, Hlen. reflexivity.
  - rewrite length_take, Hlen. reflexivity.
Qed.

Lemma PackModifyAllowList_Ok (address : Address) (status : AllowListRole)
    (input : list byte) :
  PackModifyAllowList address status = Ok input <->
  Valid status = true /\ input = Bytes address ++ Bytes status.
Proof.
  unfold PackModifyAllowList. destruct (Valid status); simpl; split.
  - intros Heq. injection Heq as <-. now split.
  - intros [_ ->]. reflexivity.
  - discriminate.
  - intros [Hv _]. discriminate.
Qed.

(** ** The paths of [modifyAllowListPrecompile.Run], in the order of its
    checks *)

Lemma modify_Run_insufficient_gas (evm : StateDB) (callerAddr addr : Address)
    (input : list byte) (suppliedGas : Z) (readOnly : bool) :
  suppliedGas < ModifyAllowListGasCost ->
  modifyAllowListPrecompile_Run evm callerAddr addr input suppliedGas readOnly
  = (mkRunResult None 0
       (Some (ExceedsGasAllowance ModifyAllowListGasCost suppliedGas)), evm).
Proof.
  intros Hlt. unfold modifyAllowListPrecompile_Run.
  apply Z.ltb_lt in Hlt. now rewrite Hlt.
Qed.

Lemma modify_Run_enough_gas (evm : StateDB) (callerAddr addr : Address)
    (input : list byte) (suppliedGas : Z) (readOnly : bool) :
  uint64_range suppliedGas ->
  ModifyAllowListGasCost <= suppliedGas ->
  modifyAllowListPrecompile_Run evm callerAddr addr input suppliedGas readOnly
  = let remainingGas := suppliedGas - ModifyAllowListGasCost in
    if readOnly then
      (mkRunResult None remainingGas (Some ModifyInReadOnly), evm)
    else if negb (IsAdmin (GetAllowListStatus evm callerAddr)) then
      (mkRunResult None remainingGas (Some (CallerCannotModify callerAddr)), evm)
    else
      match UnpackModifyAllowList input with
      | Err e => (mkRunResult None remainingGas (Some (FailedToUnpack e)), evm)
      | Ok (address, status) =>
          (mkRunResult (Some []) remainingGas None,
           setAllowListStatus evm address status)
      end.
Proof.
  intros Hrange Hle. unfold modifyAllowListPrecompile_Run.
  apply Z.ltb_ge in Hle as Hge. rewrite Hge.
  rewrite wrap64_sub by (auto using ModifyAllowListGasCost_range).
  reflexivity.
Qed.

(** ** The paths of [readAllowListPrecompile.Run] *)

Lemma read_Run_insufficient_gas (evm : StateDB) (callerAddr addr : Address)
    (input : list byte) (suppliedGas : Z) (readOnly : bool) :
  suppliedGas < ReadAllowListGasCost ->
  readAllowListPrecompile_Run evm callerAddr addr input suppliedGas readOnly
  = (mkRunResult None 0
       (Some (ExceedsGasAllowance ReadAllowListGasCost suppliedGas)), evm).
Proof.
  intros Hlt. unfold readAllowListPrecompile_Run.
  apply Z.ltb_lt in Hlt. now rewrite Hlt.
Qed.

Lemma read_Run_enough_gas (evm : StateDB) (callerAddr addr : Address)
    (input : list byte) (suppliedGas : Z) (readOnly : bool) :
  uint64_range suppliedGas ->
  ReadAllowListGasCost <= suppliedGas ->
  readAllowListPrecompile_Run evm callerAddr addr input suppliedGas readOnly
  = let remainingGas := suppliedGas - ReadAllowListGasCost in
    if negb (bool_decide (length input = AddressLength)) then
      (mkRunResult None remainingGas
         (Some (InvalidReadInputLength (length input))), evm)
    else
      (mkRunResult
         (Some (Bytes (GetAllowListStatus evm (BytesToAddress input))))
         remainingGas None, evm).
Proof.
  intros Hrange Hle. unfold readAllowListPrecompile_Run.
  apply Z.ltb_ge in Hle as Hge. rewrite Hge.
  rewrite wrap64_sub by (auto using ReadAllowListGasCost_range).
  reflexivity.
Qed.

(** The state database is returned as it was received by the read
    precompile, whatever the arguments. *)
Lemma read_Run_state (evm : StateDB) (callerAddr addr : Address)
    (input : list byte) (suppliedGas : Z) (readOnly : bool) :
  snd (readAllowListPrecompile_Run evm callerAddr addr input suppliedGas readOnly)
  = evm.
Proof.
  unfold readAllowListPrecompile_Run.
  destruct (suppliedGas <? ReadAllowListGasCost); [reflexivity|].
  now destruct (negb (bool_decide (length input = AddressLength))).
Qed.

(** The modify precompile either reports an error and returns the state
    database as it received it, or reports no error and returns the
    database after the one write that the decoded input asks for. *)
Lemma modify_Run_cases (evm : StateDB) (callerAddr addr : Address)
    (input : list byte) (suppliedGas : Z) (readOnly : bool) :
  let r := modifyAllowListPrecompile_Run evm callerAddr addr input suppliedGas readOnly in
  (exists e, err (fst r) = Some e /\ ret (fst r) = None /\ snd r = evm)
  \/ (exists address status,
        UnpackModifyAllowList input = Ok (address, status)
        /\ IsAdmin (GetAllowListStatus evm callerAddr) = true
        /\ readOnly = false
        /\ err (fst r) = None /\ ret (fst r) = Some []
        /\ snd r = setAllowListStatus evm address status).
Proof.
  unfold modifyAllowListPrecompile_Run.
  destruct (suppliedGas <? ModifyAllowListGasCost); [left; eauto|].
  destruct readOnly; [left; eauto|].
  destruct (IsAdmin (GetAllowListStatus evm callerAddr)); simpl; [|left; eauto].
  destruct (UnpackModifyAllowList input) as [[address status]|e]; simpl.
  - right. exists address, status. repeat split; reflexivity.
  - left; eauto.
Qed.

(** ** Modify Role *)

(** C2: an admin's call with sufficient gas, outside read-only mode, on the
    packed encoding of a target address and a valid role returns an empty
    output and no error; afterwards the role of the target is that role,
    and the database differs from the one before in that one slot only. *)
Theorem C2_modify_by_admin_writes_role
    (evm : StateDB) (callerAddr addr targetAddress : Address)
    (role : AllowListRole) (input : list byte) (suppliedGas : Z) :
  GetAllowListStatus evm callerAddr = Admin ->
  Valid role = true ->
  PackModifyAllowList targetAddress role = Ok input ->
  uint64_range suppliedGas ->
  ModifyAllowListGasCost <= suppliedGas ->
  let '(r, evm') :=
    modifyAllowListPrecompile_Run evm callerAddr addr input suppliedGas false in
  length input = (AddressLength + HashLength)%nat
  /\ ret r = Some [] /\ err r = None
  /\ remainingGas r = suppliedGas - ModifyAllowListGasCost
  /\ GetAllowListStatus evm' targetAddress = role
  /\ evm' = SetState evm ModifyAllowListAddress (CreateAddressKey targetAddress) role
  /\ (forall (a : Address) (k : Hash),
        (a, k) <> (ModifyAllowListAddress, CreateAddressKey targetAddress) ->
        GetState evm' a k = GetState evm a k).
Proof.
  intros Hadmin Hvalid Hpack Hrange Hgas.
  apply PackModifyAllowList_Ok in Hpack as [_ ->].
  rewrite modify_Run_enough_gas by assumption. simpl.
  rewrite Hadmin. change (IsAdmin Admin) with true. simpl.
  rewrite UnpackModifyAllowList_packed, Hvalid.
  split; [apply length_packed|].
  repeat (split; [reflexivity|]).
  split; [apply GetAllowListStatus_set_eq|].
  split; [reflexivity|].
  intros a k Hne. unfold setAllowListStatus.
  apply GetState_SetState_ne. congruence.
Qed.

(** C3: a caller whose stored role is None or Deployer gets the
    Unauthorized error for every input, well-formed or not, when the gas
    suffices and the call is not read-only; the gas left is the supplied
    gas minus the cost and the database is unchanged. *)
Theorem C3_modify_by_non_admin_unauthorized
    (evm : StateDB) (callerAddr addr : Address) (input : list byte)
    (suppliedGas : Z) :
  GetAllowListStatus evm callerAddr = None_role
  \/ GetAllowListStatus evm callerAddr = Deployer ->
  uint64_range suppliedGas ->
  ModifyAllowListGasCost <= suppliedGas ->
  let '(r, evm') :=
    modifyAllowListPrecompile_Run evm callerAddr addr input suppliedGas false in
  fails_with r Unauthorized
  /\ err r = Some (CallerCannotModify callerAddr)
  /\ remainingGas r = suppliedGas - ModifyAllowListGasCost
  /\ evm' = evm.
Proof.
  intros Hrole Hrange Hgas.
  rewrite modify_Run_enough_gas by assumption. simpl.
  assert (Hna : IsAdmin (GetAllowListStatus evm callerAddr) = false)
    by (destruct Hrole as [-> | ->]; reflexivity).
  rewrite Hna. simpl. unfold fails_with. simpl. eauto 10.
Qed.

(** C4: in read-only mode, whatever the caller's role and the input, a call
    with sufficient gas gets the ReadOnlyViolation error, the supplied gas
    minus the cost, and an unchanged database. *)
Theorem C4_modify_read_only_violation
    (evm : StateDB) (callerAddr addr : Address) (input : list byte)
    (suppliedGas : Z) :
  uint64_range suppliedGas ->
  ModifyAllowListGasCost <= suppliedGas ->
  let '(r, evm') :=
    modifyAllowListPrecompile_Run evm callerAddr addr input suppliedGas true in
  fails_with r ReadOnlyViolation
  /\ err r = Some ModifyInReadOnly
  /\ remainingGas r = suppliedGas - ModifyAllowListGasCost
  /\ evm' = evm.
Proof.
  intros Hrange Hgas.
  rewrite modify_Run_enough_gas by assumption. simpl.
  unfold fails_with. simpl. eauto 10.
Qed.

(** An admin's call whose input does not unpack reports the unpack error. *)
Lemma modify_Run_unpack_error
    (evm : StateDB) (callerAddr addr : Address) (input : list byte)
    (suppliedGas : Z) (e : unpack_error) :
  uint64_range suppliedGas ->
  ModifyAllowListGasCost <= suppliedGas ->
  GetAllowListStatus evm callerAddr = Admin ->
  UnpackModifyAllowList input = Err e ->
  modifyAllowListPrecompile_Run evm callerAddr addr input suppliedGas false
  = (mkRunResult None (suppliedGas - ModifyAllowListGasCost)
       (Some (FailedToUnpack e)), evm).
Proof.
  intros Hrange Hgas Hadmin Hunpack.
  rewrite modify_Run_enough_gas by assumption. simpl.
  rewrite Hadmin. change (IsAdmin Admin) with true. simpl.
  now rewrite Hunpack.
Qed.

(** ** Input validation *)

(** C5: with sufficient gas, an admin's Modify Role call outside read-only
    mode fails with MalformedInput when the input has not the length
    AddressLength + HashLength, and when its role bytes are zero except
    for a last byte other than 0, 1 and 2 (more generally, when they are
    not a valid role); a Read Role call fails with MalformedInput when the
    input has not the length AddressLength.  In each case the gas left is
    the supplied gas minus the cost of the entry point and the database is
    unchanged. *)
Theorem C5_malformed_input_rejected
    (evm : StateDB) (callerAddr addr : Address) (suppliedGas : Z) :
  uint64_range suppliedGas ->
  (forall input : list byte,
      ModifyAllowListGasCost <= suppliedGas ->
      GetAllowListStatus evm callerAddr = Admin ->
      length input <> (AddressLength + HashLength)%nat ->
      let '(r, evm') :=
        modifyAllowListPrecompile_Run evm callerAddr addr input suppliedGas false in
      fails_with r MalformedInput
      /\ remainingGas r = suppliedGas - ModifyAllowListGasCost
      /\ evm' = evm)
  /\ (forall (targetAddress : Address) (b : byte),
      ModifyAllowListGasCost <= suppliedGas ->
      GetAllowListStatus evm callerAddr = Admin ->
      b <> x00 -> b <> x01 -> b <> x02 ->
      let '(r, evm') :=
        modifyAllowListPrecompile_Run evm callerAddr addr
          (Bytes targetAddress ++ Bytes (last_byte_hash b)) suppliedGas false in
      fails_with r MalformedInput
      /\ remainingGas r = suppliedGas - ModifyAllowListGasCost
      /\ evm' = evm)
  /\ (forall (targetAddress : Address) (status : Hash),
      ModifyAllowListGasCost <= suppliedGas ->
      GetAllowListStatus evm callerAddr = Admin ->
      Valid status = false ->
      let '(r, evm') :=
        modifyAllowListPrecompile_Run evm callerAddr addr
          (Bytes targetAddress ++ Bytes status) suppliedGas false in
      fails_with r MalformedInput
      /\ remainingGas r = suppliedGas - ModifyAllowListGasCost
      /\ evm' = evm)
  /\ (forall (input : list byte) (readOnly : bool),
      ReadAllowListGasCost <= suppliedGas ->
      length input <> AddressLength ->
      let '(r, evm') :=
        readAllowListPrecompile_Run evm callerAddr addr input suppliedGas readOnly in
      fails_with r MalformedInput
      /\ remainingGas r = suppliedGas - ReadAllowListGasCost
      /\ evm' = evm).
Proof.
  intros Hrange.
  assert (Hinvalid : forall (targetAddress : Address) (status : Hash),
             ModifyAllowListGasCost <= suppliedGas ->
             GetAllowListStatus evm callerAddr = Admin ->
             Valid status = false ->
             let '(r, evm') :=
               modifyAllowListPrecompile_Run evm callerAddr addr
                 (Bytes targetAddress ++ Bytes status) suppliedGas false in
             fails_with r MalformedInput
             /\ remainingGas r = suppliedGas - ModifyAllowListGasCost
             /\ evm' = evm).
  { intros targetAddress status Hgas Hadmin Hinv.
    rewrite (modify_Run_unpack_error _ _ _ _ _ (InvalidStatus status))
      by (try assumption; now rewrite UnpackModifyAllowList_packed, Hinv).
    unfold fails_with. simpl. eauto 10. }
  split; [|split; [|split]].
  - intros input Hgas Hadmin Hlen.
    rewrite (modify_Run_unpack_error _ _ _ _ _
               (UnexpectedLength (length input) modifyAllowListInputLength))
      by (try assumption; now apply UnpackModifyAllowList_wrong_length).
    unfold fails_with. simpl. eauto 10.
  - intros targetAddress b Hgas Hadmin Hb0 _ _.
    apply Hinvalid; try assumption. now apply Valid_last_byte_hash.
  - exact Hinvalid.
  - intros input readOnly Hgas Hlen.
    rewrite read_Run_enough_gas by assumption. simpl.
    rewrite bool_decide_eq_false_2 by assumption. simpl.
    unfold fails_with. simpl. eauto 10.
Qed.

(** ** Errors and the state database *)

(** C6: Modify Role either returns an error and the database it received,
    or returns no error and the database after the single write of the
    decoded role for the decoded address; Read Role always returns the
    database it received. *)
Theorem C6_error_leaves_state_unmodified
    (evm : StateDB) (callerAddr addr : Address) (input : list byte)
    (suppliedGas : Z) (readOnly : bool) :
  let '(r, evm') :=
    modifyAllowListPrecompile_Run evm callerAddr addr input suppliedGas readOnly in
  let '(r2, evm2) :=
    readAllowListPrecompile_Run evm callerAddr addr input suppliedGas readOnly in
  (err r <> None -> evm' = evm)
  /\ (((exists e, err r = Some e) /\ evm' = evm)
      \/ (err r = None
          /\ exists address status,
              UnpackModifyAllowList input = Ok (address, status)
              /\ evm' = setAllowListStatus evm address status))
  /\ (err r2 <> None -> evm2 = evm)
  /\ evm2 = evm.
Proof.
  pose proof (modify_Run_cases evm callerAddr addr input suppliedGas readOnly)
    as Hcases.
  pose proof (read_Run_state evm callerAddr addr input suppliedGas readOnly)
    as Hread.
  destruct (modifyAllowListPrecompile_Run _ _ _ _ _ _) as [r evm'].
  destruct (readAllowListPrecompile_Run _ _ _ _ _ _) as [r2 evm2].
  simpl in *.
  destruct Hcases as [(e & He & _ & Hst) | (a & s & Hu & _ & _ & He & _ & Hst)].
  - repeat split; eauto.
  - repeat split; eauto.
    + intros Hne. congruence.
    + right. eauto.
Qed.

(** ** Gas accounting *)

(** C7: for both entry points and all inputs, a supplied gas strictly below
    the cost makes the call fail (with InsufficientGas) and leaves zero
    gas; otherwise, on success and on failure alike, the gas left is the
    supplied gas minus the cost. *)
Theorem C7_gas_accounting
    (evm : StateDB) (callerAddr addr : Address) (input : list byte)
    (suppliedGas : Z) (readOnly : bool) :
  uint64_range suppliedGas ->
  let r := fst (modifyAllowListPrecompile_Run evm callerAddr addr input
                  suppliedGas readOnly) in
  let r2 := fst (readAllowListPrecompile_Run evm callerAddr addr input
                   suppliedGas readOnly) in
  (suppliedGas < ModifyAllowListGasCost ->
     fails_with r InsufficientGas /\ remainingGas r = 0)
  /\ (ModifyAllowListGasCost <= suppliedGas ->
     remainingGas r = suppliedGas - ModifyAllowListGasCost)
  /\ (suppliedGas < ReadAllowListGasCost ->
     fails_with r2 InsufficientGas /\ remainingGas r2 = 0)
  /\ (ReadAllowListGasCost <= suppliedGas ->
     remainingGas r2 = suppliedGas - ReadAllowListGasCost).
Proof.
  intros Hrange. simpl. repeat split.
  - rewrite modify_Run_insufficient_gas by assumption. reflexivity.
  - rewrite modify_Run_insufficient_gas by assumption. simpl. eauto.
  - rewrite modify_Run_insufficient_gas by assumption. reflexivity.
  - intros Hgas. rewrite modify_Run_enough_gas by assumption. simpl.
    destruct readOnly; [reflexivity|].
    destruct (negb (IsAdmin (GetAllowListStatus evm callerAddr)));
      [reflexivity|].
    now destruct (UnpackModifyAllowList input) as [[a s]|e].
  - rewrite read_Run_insufficient_gas by assumption. reflexivity.
  - rewrite read_Run_insufficient_gas by assumption. simpl. eauto.
  - rewrite read_Run_insufficient_gas by assumption. reflexivity.
  - intros Hgas. rewrite read_Run_enough_gas by assumption. simpl.
    now destruct (negb (bool_decide (length input = AddressLength))).
Qed.

(** ** Read Role *)

(** C8: on an input of exactly AddressLength bytes and with sufficient gas,
    Read Role succeeds whatever the read-only flag; its output is the
    HashLength bytes of the role stored for the address that the input
    spells: the value that the database holds in the slot of that address
    under the allow list's contract address, and the all-zero encoding of
    None if that slot was never written; the database is returned
    unchanged. *)
Theorem C8_read_returns_stored_role
    (evm : StateDB) (callerAddr addr : Address) (input : list byte)
    (suppliedGas : Z) (readOnly : bool) :
  length input = AddressLength ->
  uint64_range suppliedGas ->
  ReadAllowListGasCost <= suppliedGas ->
  let readAddress := BytesToAddress input in
  let role := GetAllowListStatus evm readAddress in
  let slot := evm !! (ModifyAllowListAddress, CreateAddressKey readAddress) in
  let '(r, evm') :=
    readAllowListPrecompile_Run evm callerAddr addr input suppliedGas readOnly in
  Bytes readAddress = input
  /\ err r = None
  /\ ret r = Some (Bytes role)
  /\ length (Bytes role) = HashLength
  /\ remainingGas r = suppliedGas - ReadAllowListGasCost
  /\ (slot = None ->
      role = None_role /\ Bytes role = replicate HashLength x00)
  /\ evm' = evm
  /\ (forall value : Hash,
        slot = Some value ->
        ret r = Some (Bytes value) /\ length (Bytes value) = HashLength)
  /\ (slot = None -> ret r = Some (replicate HashLength x00))
  /\ ret r
     = Some (Bytes (GetState evm ModifyAllowListAddress
                      (CreateAddressKey readAddress))).
Proof.
  intros Hlen Hrange Hgas.
  rewrite read_Run_enough_gas by assumption. simpl.
  rewrite bool_decide_eq_true_2 by assumption. simpl.
  split; [now apply Bytes_SetBytes|].
  repeat (split; [reflexivity|]).
  split; [apply length_Bytes|].
  split; [reflexivity|].
  split.
  { intros Hunset. unfold GetAllowListStatus.
    rewrite (GetState_unset _ _ _ Hunset). split; reflexivity. }
  split; [reflexivity|].
  split; [|split].
  - intros value Hslot. split; [|apply length_Bytes].
    unfold GetAllowListStatus, GetState. cbv zeta. now rewrite Hslot.
  - intros Hunset. unfold GetAllowListStatus.
    now rewrite (GetState_unset _ _ _ Hunset).
  - reflexivity.
Qed.

(** ** The stored roles stay valid *)

Lemma roles_valid_SetState (state : StateDB) (key value : Hash) :
  roles_valid state ->
  Valid value = true ->
  roles_valid (SetState state ModifyAllowListAddress key value).
Proof.
  intros Hst Hvalid key' value'. unfold SetState.
  destruct (decide (key = key')) as [->|Hne].
  - rewrite lookup_insert_eq. congruence.
  - rewrite lookup_insert_ne by congruence. apply Hst.
Qed.

Lemma roles_valid_Configure (c : AllowListConfig) (state : StateDB) :
  roles_valid state -> roles_valid (Configure c state).
Proof.
  unfold Configure. generalize (AllowListAdmins c) as admins.
  intros admins; revert state.
  induction admins as [|adminAddr admins IH]; intros state Hst; simpl.
  - exact Hst.
  - apply IH. now apply roles_valid_SetState.
Qed.

Lemma roles_valid_modify (state : StateDB) (callerAddr addr : Address)
    (input : list byte) (suppliedGas : Z) (readOnly : bool) :
  roles_valid state ->
  roles_valid
    (snd (modifyAllowListPrecompile_Run state callerAddr addr input
            suppliedGas readOnly)).
Proof.
  intros Hst.
  destruct (modify_Run_cases state callerAddr addr input suppliedGas readOnly)
    as [(e & _ & _ & ->) | (a & s & Hu & _ & _ & _ & _ & ->)].
  - exact Hst.
  - apply UnpackModifyAllowList_Ok in Hu as [Hvalid _].
    unfold setAllowListStatus. now apply roles_valid_SetState.
Qed.

Lemma roles_valid_run_operation (state : StateDB) (op : operation) :
  roles_valid state -> roles_valid (run_operation state op).
Proof.
  intros Hst. destruct op; simpl.
  - now apply roles_valid_Configure.
  - now apply roles_valid_modify.
  - now rewrite read_Run_state.
Qed.

(** C9: if every slot stored under the allow list's address holds one of
    the three role constants, then so it is after any sequence of
    Configure, Modify Role and Read Role calls, with any arguments: the
    empty database has the property, Configure stores Admin only, and
    Modify Role stores only a role that [Valid] accepted. *)
Theorem C9_stored_roles_stay_valid (state : StateDB) (ops : list operation) :
  roles_valid state ->
  roles_valid (fold_left run_operation ops state)
  /\ (forall key : Hash,
        Valid (GetState (fold_left run_operation ops state)
                 ModifyAllowListAddress key) = true).
Proof.
  intros Hst.
  assert (Hfinal : roles_valid (fold_left run_operation ops state)).
  { revert state Hst.
    induction ops as [|op ops IH]; intros state Hst; simpl.
    - exact Hst.
    - apply IH. now apply roles_valid_run_operation. }
  split; [exact Hfinal|].
  intros key. unfold GetState.
  destruct (_ !! (ModifyAllowListAddress, key)) as [value|] eqn:Hlook.
  - exact (Hfinal key value Hlook).
  - reflexivity.
Qed.

(** ** Write/read round trip *)

(** C10: after writing a valid role for an address through
    [setAllowListStatus], [GetAllowListStatus] returns that role for the
    address; the key is derived injectively from the address, and the role
    of every other address is what it was before the write. *)
Theorem C10_set_get_round_trip
    (state : StateDB) (address : Address) (role : AllowListRole) :
  Valid role = true ->
  GetAllowListStatus (setAllowListStatus state address role) address = role
  /\ (forall a b : Address, CreateAddressKey a = CreateAddressKey b -> a = b)
  /\ (forall other : Address,
        other <> address ->
        GetAllowListStatus (setAllowListStatus state address role) other
        = GetAllowListStatus state other).
Proof.
  intros _. split; [apply GetAllowListStatus_set_eq|].
  split; [exact CreateAddressKey_inj|].
  intros other Hne. now apply GetAllowListStatus_set_ne.
Qed.

End Properties.

(** ** The role encodings *)

(** C1: the encodings of the three roles in the code.  None is the all-zero
    hash.  Deployer and Admin are the array literals [common.Hash{1}] and
    [common.Hash{2}], whose FIRST byte is 1, respectively 2, and whose last
    byte is zero.  The hashes that are zero except for a last byte 1 or 2,
    which the specification gives as the encodings of Deployer and Admin,
    are rejected by [Valid]; an admin's Modify Role call that carries one is
    refused as malformed, and Read Role outputs the byte 1 in first position
    for a stored Deployer. *)
Theorem C1_role_encodings_in_the_code :
  None_role = last_byte_hash x00
  /\ Deployer = first_byte_hash x01
  /\ Admin = first_byte_hash x02
  /\ Deployer <> last_byte_hash x01
  /\ Admin <> last_byte_hash x02
  /\ Valid (last_byte_hash x01) = false
  /\ Valid (last_byte_hash x02) = false
  /\ (forall s : AllowListRole,
        Valid s = true <->
        s = last_byte_hash x00 \/ s = first_byte_hash x01 \/ s = first_byte_hash x02)
  /\ fst (modifyAllowListPrecompile_Run (H := sample_params) sample_state
            sample_admin sample_admin
            (Bytes sample_target ++ Bytes (last_byte_hash x01)) 20000 false)
     = mkRunResult None 0
         (Some (FailedToUnpack (InvalidStatus (last_byte_hash x01))))
  /\ GetAllowListStatus (H := sample_params)
       (snd (modifyAllowListPrecompile_Run (H := sample_params) sample_state
               sample_admin sample_admin
               (Bytes sample_target ++ Bytes (last_byte_hash x01)) 20000 false))
       sample_target
     = None_role
  /\ ret (fst (readAllowListPrecompile_Run (H := sample_params)
                 sample_state_deployer sample_other sample_other
                 (Bytes sample_target) 5000 true))
     = Some (x01 :: replicate 31 x00).
Proof.
  split; [reflexivity|].
  split; [reflexivity|].
  split; [reflexivity|].
  split; [intros Heq; apply (f_equal vec_to_list) in Heq; discriminate|].
  split; [intros Heq; apply (f_equal vec_to_list) in Heq; discriminate|].
  split; [reflexivity|].
  split; [reflexivity|].
  split; [exact Valid_spec|].
  split; [vm_compute; reflexivity|].
  split; vm_compute; reflexivity.
Qed.

(** ** The theorems on sample values *)

Local Ltac uint64_side :=
  vm_compute;
  first [ reflexivity
        | discriminate
        | split; [discriminate | reflexivity] ].

(** The admin seeded by [Configure] makes [sample_target] a deployer. *)
Lemma C2_witness :
  GetAllowListStatus (H := sample_params)
    (snd (modifyAllowListPrecompile_Run (H := sample_params) sample_state
            sample_admin sample_admin
            (Bytes sample_target ++ Bytes Deployer) 30000 false))
    sample_target
  = Deployer.
Proof.
  generalize (C2_modify_by_admin_writes_role (H := sample_params)
                sample_state sample_admin sample_admin sample_target Deployer
                (Bytes sample_target ++ Bytes Deployer) 30000
                ltac:(uint64_side) ltac:(uint64_side) ltac:(uint64_side)
                ltac:(uint64_side) ltac:(uint64_side)).
  destruct (modifyAllowListPrecompile_Run _ _ _ _ _ _) as [r evm'].
  intros (_ & _ & _ & _ & Hrole & _). exact Hrole.
Defined.

(** An address without a role cannot make [sample_target] an admin. *)
Lemma C3_witness :
  fails_with
    (fst (modifyAllowListPrecompile_Run (H := sample_params) sample_state
            sample_other sample_other
            (Bytes sample_target ++ Bytes Admin) 30000 false))
    Unauthorized.
Proof.
  assert (Hrole : GetAllowListStatus (H := sample_params) sample_state
                    sample_other = None_role) by (vm_compute; reflexivity).
  assert (Hrange : uint64_range 30000) by uint64_side.
  assert (Hgas : ModifyAllowListGasCost (PrecompileParams := sample_params)
                 <= 30000) by uint64_side.
  generalize (C3_modify_by_non_admin_unauthorized (H := sample_params)
                sample_state sample_other sample_other
                (Bytes sample_target ++ Bytes Admin) 30000
                (or_introl Hrole) Hrange Hgas).
  destruct (modifyAllowListPrecompile_Run _ _ _ _ _ _) as [r evm'].
  intros (Hfail & _). exact Hfail.
Defined.

(** The seeded admin is refused in read-only mode. *)
Lemma C4_witness :
  fails_with
    (fst (modifyAllowListPrecompile_Run (H := sample_params) sample_state
            sample_admin sample_admin
            (Bytes sample_target ++ Bytes Deployer) 30000 true))
    ReadOnlyViolation.
Proof.
  generalize (C4_modify_read_only_violation (H := sample_params)
                sample_state sample_admin sample_admin
                (Bytes sample_target ++ Bytes Deployer) 30000
                ltac:(uint64_side) ltac:(uint64_side)).
  destruct (modifyAllowListPrecompile_Run _ _ _ _ _ _) as [r evm'].
  intros (Hfail & _). exact Hfail.
Defined.

(** A role with last byte 3, and inputs of three bytes, are malformed. *)
Lemma C5_witness :
  fails_with
    (fst (modifyAllowListPrecompile_Run (H := sample_params) sample_state
            sample_admin sample_admin
            (Bytes sample_target ++ Bytes (last_byte_hash x03)) 30000 false))
    MalformedInput
  /\ fails_with
       (fst (modifyAllowListPrecompile_Run (H := sample_params) sample_state
               sample_admin sample_admin [x01; x02; x03] 30000 false))
       MalformedInput
  /\ fails_with
       (fst (readAllowListPrecompile_Run (H := sample_params) sample_state
               sample_admin sample_admin [x01; x02; x03] 30000 false))
       MalformedInput.
Proof.
  destruct (C5_malformed_input_rejected (H := sample_params)
              sample_state sample_admin sample_admin 30000 ltac:(uint64_side))
    as (Hlen & Hbyte & _ & Hread).
  split; [|split].
  - generalize (Hbyte sample_target x03 ltac:(uint64_side) ltac:(uint64_side)
                  ltac:(discriminate) ltac:(discriminate) ltac:(discriminate)).
    destruct (modifyAllowListPrecompile_Run _ _ _ _ _ _) as [r evm'].
    intros (Hfail & _). exact Hfail.
  - generalize (Hlen [x01; x02; x03] ltac:(uint64_side) ltac:(uint64_side)
                  ltac:(discriminate)).
    destruct (modifyAllowListPrecompile_Run _ _ _ _ _ _) as [r evm'].
    intros (Hfail & _). exact Hfail.
  - generalize (Hread [x01; x02; x03] false ltac:(uint64_side)
                  ltac:(discriminate)).
    destruct (readAllowListPrecompile_Run _ _ _ _ _ _) as [r evm'].
    intros (Hfail & _). exact Hfail.
Defined.

(** The refused call of an address without a role leaves [sample_state]. *)
Lemma C6_witness :
  snd (modifyAllowListPrecompile_Run (H := sample_params) sample_state
         sample_other sample_other
         (Bytes sample_target ++ Bytes Admin) 30000 false)
  = sample_state.
Proof.
  assert (Herr : err (fst (modifyAllowListPrecompile_Run (H := sample_params)
                             sample_state sample_other sample_other
                             (Bytes sample_target ++ Bytes Admin) 30000 false))
                 <> None) by (vm_compute; discriminate).
  generalize (C6_error_leaves_state_unmodified (H := sample_params)
                sample_state sample_other sample_other
                (Bytes sample_target ++ Bytes Admin) 30000 false).
  revert Herr.
  destruct (modifyAllowListPrecompile_Run _ _ _ _ _ _) as [r evm'].
  destruct (readAllowListPrecompile_Run _ _ _ _ _ _) as [r2 evm2].
  intros Herr (Hstate & _). exact (Hstate Herr).
Defined.

(** One unit of gas short of the modify cost; ample gas for a read. *)
Lemma C7_witness :
  remainingGas
    (fst (modifyAllowListPrecompile_Run (H := sample_params) sample_state
            sample_admin sample_admin [] 19999 false)) = 0
  /\ remainingGas
       (fst (readAllowListPrecompile_Run (H := sample_params) sample_state
               sample_admin sample_admin [] 30000 false)) = 30000 - 5000.
Proof.
  split.
  - apply (C7_gas_accounting (H := sample_params) sample_state sample_admin
             sample_admin [] 19999 false ltac:(uint64_side)).
    uint64_side.
  - apply (C7_gas_accounting (H := sample_params) sample_state sample_admin
             sample_admin [] 30000 false ltac:(uint64_side)).
    uint64_side.
Defined.

(** Reading [sample_target], stored as a deployer, in read-only mode from an
    unrelated caller: the output is the stored hash, byte 1 first. *)
Lemma C8_witness :
  ret (fst (readAllowListPrecompile_Run (H := sample_params)
              sample_state_deployer sample_other sample_other
              (Bytes sample_target) 5000 true))
  = Some (Bytes Deployer)
  /\ Bytes Deployer = x01 :: replicate 31 x00.
Proof.
  assert (Hslot : sample_state_deployer
                    !! (ModifyAllowListAddress (PrecompileParams := sample_params),
                        CreateAddressKey (BytesToAddress (Bytes sample_target)))
                  = @Some Hash Deployer) by (vm_compute; reflexivity).
  split; [|reflexivity].
  generalize (C8_read_returns_stored_role (H := sample_params)
                sample_state_deployer sample_other sample_other
                (Bytes sample_target) 5000 true
                ltac:(uint64_side) ltac:(uint64_side) ltac:(uint64_side)).
  destruct (readAllowListPrecompile_Run _ _ _ _ _ _) as [r evm'].
  intros (_ & _ & _ & _ & _ & _ & _ & Hstored & _).
  exact (proj1 (Hstored Deployer Hslot)).
Defined.

(** Configure, then a modify and a read, from the empty database. *)
Lemma C9_witness :
  roles_valid (H := sample_params)
    (fold_left (run_operation (H := sample_params))
       [OpConfigure (mkAllowListConfig 0 [sample_admin]);
        OpModify sample_admin sample_admin
          (Bytes sample_target ++ Bytes Deployer) 30000 false;
        OpRead sample_other sample_other (Bytes sample_target) 5000 false]
       ∅).
Proof.
  apply (C9_stored_roles_stay_valid (H := sample_params) ∅).
  intros key value Hlook. rewrite lookup_empty in Hlook. discriminate.
Defined.

(** Writing Deployer for [sample_target] leaves [sample_admin] an admin. *)
Lemma C10_witness :
  GetAllowListStatus (H := sample_params)
    (setAllowListStatus (H := sample_params) sample_state sample_target Deployer)
    sample_target = Deployer
  /\ GetAllowListStatus (H := sample_params)
       (setAllowListStatus (H := sample_params) sample_state sample_target Deployer)
       sample_admin = GetAllowListStatus (H := sample_params) sample_state sample_admin.
Proof.
  destruct (C10_set_get_round_trip (H := sample_params) sample_state
              sample_target Deployer ltac:(uint64_side))
    as (Hsame & _ & Hother).
  split; [exact Hsame|].
  apply Hother. intros Heq. apply (f_equal vec_to_list) in Heq. discriminate.
Defined.

(** * Further properties of the code *)

Section Codec.
Context `{PrecompileParams}.

(** X1: packing and unpacking are inverse of each other: [input] is what
    [PackModifyAllowList] returns for an address and a status exactly when
    [UnpackModifyAllowList] returns that address and that status for
    [input]. *)
Theorem X1_pack_unpack_inverse
    (address : Address) (status : AllowListRole) (input : list byte) :
  PackModifyAllowList address status = Ok input
  <-> UnpackModifyAllowList input = Ok (address, status).
Proof.
  rewrite PackModifyAllowList_Ok. split.
  - intros [Hvalid ->]. now rewrite UnpackModifyAllowList_packed, Hvalid.
  - apply UnpackModifyAllowList_Ok.
Qed.

(** X2: the packed encoding is unambiguous: an input is the encoding of at
    most one pair of an address and a status, and it has
    [modifyAllowListInputLength] bytes. *)
Theorem X2_pack_injective
    (address address' : Address) (status status' : AllowListRole)
    (input : list byte) :
  PackModifyAllowList address status = Ok input ->
  PackModifyAllowList address' status' = Ok input ->
  address = address' /\ status = status'
  /\ length input = modifyAllowListInputLength.
Proof.
  intros Hpack Hpack'.
  apply PackModifyAllowList_Ok in Hpack as [_ Hin].
  apply PackModifyAllowList_Ok in Hpack' as [_ Hin'].
  assert (Haddr : Bytes address = Bytes address').
  { rewrite <- (take_packed address status), <- (take_packed address' status').
    congruence. }
  assert (Hstatus : Bytes status = Bytes status').
  { rewrite <- (drop_packed address status), <- (drop_packed address' status').
    congruence. }
  split; [now apply Bytes_inj|].
  split; [now apply Bytes_inj|].
  rewrite Hin. apply length_packed.
Qed.

(** X3: the capabilities are nested: a role that is admin can deploy, a role
    that can deploy is valid, and the only valid role that cannot deploy is
    None. *)
Theorem X3_role_capabilities_nested (s : AllowListRole) :
  (IsAdmin s = true -> CanDeploy s = true)
  /\ (CanDeploy s = true -> Valid s = true)
  /\ (Valid s = true /\ CanDeploy s = false <-> s = None_role).
Proof.
  unfold IsAdmin, CanDeploy, Valid.
  destruct (bool_decide (s = None_role)) eqn:Hn;
    destruct (bool_decide (s = Deployer)) eqn:Hd;
    destruct (bool_decide (s = Admin)) eqn:Ha; simpl;
    try apply bool_decide_eq_true in Hn;
    try apply bool_decide_eq_true in Hd;
    try apply bool_decide_eq_true in Ha;
    try apply bool_decide_eq_false in Hn;
    repeat split; try congruence; try tauto;
    subst; try discriminate.
  all: try (intros [_ Hf]; discriminate Hf).
  all: try (intros [Hf _]; discriminate Hf).
Qed.

End Codec.

Section Calls.
Context `{PrecompileParams}.

(** A call of the modify precompile that passes all four checks. *)
Lemma modify_Run_success
    (evm : StateDB) (callerAddr addr address : Address) (status : AllowListRole)
    (suppliedGas : Z) :
  uint64_range suppliedGas ->
  ModifyAllowListGasCost <= suppliedGas ->
  GetAllowListStatus evm callerAddr = Admin ->
  Valid status = true ->
  modifyAllowListPrecompile_Run evm callerAddr addr
    (Bytes address ++ Bytes status) suppliedGas false
  = (mkRunResult (Some []) (suppliedGas - ModifyAllowListGasCost) None,
     setAllowListStatus evm address status).
Proof.
  intros Hrange Hgas Hadmin Hvalid.
  rewrite modify_Run_enough_gas by assumption. simpl.
  rewrite Hadmin. change (IsAdmin Admin) with true. simpl.
  now rewrite UnpackModifyAllowList_packed, Hvalid.
Qed.

(** A call of the modify precompile by a caller that is not an admin returns
    the database it received. *)
Lemma modify_Run_not_admin_state
    (evm : StateDB) (callerAddr addr : Address) (input : list byte)
    (suppliedGas : Z) (readOnly : bool) :
  GetAllowListStatus evm callerAddr <> Admin ->
  snd (modifyAllowListPrecompile_Run evm callerAddr addr input suppliedGas readOnly)
  = evm.
Proof.
  intros Hna.
  destruct (modify_Run_cases evm callerAddr addr input suppliedGas readOnly)
    as [(e & _ & _ & Hst) | (a & s & _ & Hadmin & _)].
  - exact Hst.
  - apply IsAdmin_spec in Hadmin. contradiction.
Qed.

(** X4: Modify Role returns no error exactly when the gas covers the cost,
    the call is not read-only, the stored role of the caller is Admin and
    the input is an address followed by a valid role; it then returns the
    empty output. *)
Theorem X4_modify_succeeds_iff
    (evm : StateDB) (callerAddr addr : Address) (input : list byte)
    (suppliedGas : Z) (readOnly : bool) :
  let r := fst (modifyAllowListPrecompile_Run evm callerAddr addr input
                  suppliedGas readOnly) in
  (err r = None <->
   ModifyAllowListGasCost <= suppliedGas
   /\ readOnly = false
   /\ GetAllowListStatus evm callerAddr = Admin
   /\ exists (address : Address) (status : AllowListRole),
        Valid status = true /\ input = Bytes address ++ Bytes status)
  /\ (err r = None <-> ret r = Some []).
Proof.
  unfold modifyAllowListPrecompile_Run.
  destruct (Z.ltb_spec suppliedGas ModifyAllowListGasCost) as [Hlt|Hge]; simpl.
  { split; split; try discriminate. intros (Hle & _). lia. }
  destruct readOnly; simpl.
  { split; split; try discriminate. intros (_ & Hro & _). discriminate. }
  destruct (IsAdmin (GetAllowListStatus evm callerAddr)) eqn:Hadm; simpl.
  2:{ split; split; try discriminate. intros (_ & _ & Hadmin & _).
      apply IsAdmin_spec in Hadmin. congruence. }
  apply IsAdmin_spec in Hadm.
  destruct (UnpackModifyAllowList input) as [[address status]|e] eqn:Hunpack;
    simpl.
  - apply UnpackModifyAllowList_Ok in Hunpack as [Hvalid Hin].
    split; split; try reflexivity. intros _. eauto 10.
  - split; split; try discriminate.
    intros (_ & _ & _ & address & status & Hvalid & ->).
    rewrite UnpackModifyAllowList_packed, Hvalid in Hunpack. discriminate.
Qed.

(** X5: Read Role returns no error exactly when the gas covers the cost and
    the input has AddressLength bytes, its output then has HashLength bytes;
    and what it returns does not depend on the caller, on the address it is
    called at, or on the read-only flag. *)
Theorem X5_read_succeeds_iff
    (evm : StateDB) (callerAddr addr : Address) (input : list byte)
    (suppliedGas : Z) (readOnly : bool) :
  let r := fst (readAllowListPrecompile_Run evm callerAddr addr input
                  suppliedGas readOnly) in
  (err r = None <->
   ReadAllowListGasCost <= suppliedGas /\ length input = AddressLength)
  /\ (err r = None <->
      exists out : list byte, ret r = Some out /\ length out = HashLength)
  /\ (forall (callerAddr' addr' : Address) (readOnly' : bool),
        readAllowListPrecompile_Run evm callerAddr' addr' input suppliedGas readOnly'
        = readAllowListPrecompile_Run evm callerAddr addr input suppliedGas readOnly).
Proof.
  unfold readAllowListPrecompile_Run.
  destruct (Z.ltb_spec suppliedGas ReadAllowListGasCost) as [Hlt|Hge]; simpl.
  { repeat split; try discriminate.
    - intros (Hle & _). lia.
    - intros (out & Hout & _). discriminate. }
  destruct (bool_decide (length input = AddressLength)) eqn:Hlen; simpl.
  - apply bool_decide_eq_true in Hlen. repeat split; try assumption.
    intros _. eexists. split; [reflexivity | apply length_Bytes].
  - apply bool_decide_eq_false in Hlen. repeat split; try discriminate.
    + intros (_ & Hl). contradiction.
    + intros (out & Hout & _). discriminate.
Qed.

(** X6: [RequiredGas] is the threshold of [Run]: for both precompiles the
    error of a call is the gas-allowance error exactly when the supplied gas
    is below [RequiredGas] of the input, whatever the other arguments. *)
Theorem X6_required_gas_is_the_threshold
    (evm : StateDB) (callerAddr addr : Address) (input : list byte)
    (suppliedGas : Z) (readOnly : bool) :
  ((exists e, err (fst (modifyAllowListPrecompile_Run evm callerAddr addr input
                          suppliedGas readOnly)) = Some e
              /\ kind_of e = InsufficientGas)
   <-> suppliedGas < modifyAllowListPrecompile_RequiredGas input)
  /\ ((exists e, err (fst (readAllowListPrecompile_Run evm callerAddr addr input
                             suppliedGas readOnly)) = Some e
                 /\ kind_of e = InsufficientGas)
      <-> suppliedGas < readAllowListPrecompile_RequiredGas input).
Proof.
  unfold modifyAllowListPrecompile_RequiredGas,
    readAllowListPrecompile_RequiredGas.
  split.
  - unfold modifyAllowListPrecompile_Run.
    destruct (Z.ltb_spec suppliedGas ModifyAllowListGasCost) as [Hlt|Hge]; simpl.
    { split; [intros _; exact Hlt | intros _; eauto]. }
    split; [|lia]. intros (e & He & Hk); exfalso.
    destruct readOnly; simpl in He.
    { injection He as <-. discriminate. }
    destruct (IsAdmin (GetAllowListStatus evm callerAddr)); simpl in He.
    2:{ injection He as <-. discriminate. }
    destruct (UnpackModifyAllowList input) as [[a s]|e']; simpl in He.
    + discriminate.
    + injection He as <-. discriminate.
  - unfold readAllowListPrecompile_Run.
    destruct (Z.ltb_spec suppliedGas ReadAllowListGasCost) as [Hlt|Hge]; simpl.
    { split; [intros _; exact Hlt | intros _; eauto]. }
    split; [|lia]. intros (e & He & Hk); exfalso.
    destruct (bool_decide (length input = AddressLength)); simpl in He.
    + discriminate.
    + injection He as <-. discriminate.
Qed.

End Calls.

Section Configuration.
Context `{PrecompileParams}.

Lemma Configure_cons (t : Z) (adminAddr : Address) (admins : list Address)
    (state : StateDB) :
  Configure (mkAllowListConfig t (adminAddr :: admins)) state
  = Configure (mkAllowListConfig t admins)
      (SetState state ModifyAllowListAddress (CreateAddressKey adminAddr) Admin).
Proof. reflexivity. Qed.

Lemma Configure_app (t : Z) (admins admins' : list Address) (state : StateDB) :
  Configure (mkAllowListConfig t (admins ++ admins')) state
  = Configure (mkAllowListConfig t admins')
      (Configure (mkAllowListConfig t admins) state).
Proof. unfold Configure. simpl. apply fold_left_app. Qed.

(** The timestamp plays no part in [Configure]. *)
Lemma Configure_timestamp (c : AllowListConfig) (t : Z) (state : StateDB) :
  Configure c state = Configure (mkAllowListConfig t (AllowListAdmins c)) state.
Proof. reflexivity. Qed.

(** A slot that holds Admin before [Configure] holds Admin after it. *)
Lemma Configure_keeps_Admin (t : Z) (admins : list Address) (state : StateDB)
    (key : Hash) :
  state !! (ModifyAllowListAddress, key) = @Some Hash Admin ->
  Configure (mkAllowListConfig t admins) state !! (ModifyAllowListAddress, key)
  = @Some Hash Admin.
Proof.
  revert state. induction admins as [|adminAddr admins IH]; intros state Hkey.
  - exact Hkey.
  - rewrite Configure_cons. apply IH. unfold SetState.
    destruct (decide (CreateAddressKey adminAddr = key)) as [->|Hne].
    + apply lookup_insert_eq.
    + rewrite lookup_insert_ne by congruence. exact Hkey.
Qed.

Lemma Configure_lookup_admin (t : Z) (admins : list Address) (state : StateDB)
    (a : Address) :
  In a admins ->
  Configure (mkAllowListConfig t admins) state
    !! (ModifyAllowListAddress, CreateAddressKey a)
  = @Some Hash Admin.
Proof.
  revert state. induction admins as [|adminAddr admins IH]; intros state Hin.
  - destruct Hin.
  - rewrite Configure_cons. destruct Hin as [->|Hin].
    + apply Configure_keeps_Admin. unfold SetState. apply lookup_insert_eq.
    + now apply IH.
Qed.

Lemma Configure_admin_status (t : Z) (admins : list Address) (state : StateDB)
    (a : Address) :
  In a admins ->
  GetAllowListStatus (Configure (mkAllowListConfig t admins) state) a = Admin.
Proof.
  intros Hin. unfold GetAllowListStatus, GetState. cbv zeta.
  now rewrite (Configure_lookup_admin t admins state a Hin).
Qed.

(** X7: after [Configure] every address of [AllowListAdmins] has the role
    Admin, whatever the database held before; a slot of the allow list whose
    key is the key of none of these addresses holds what it held before. *)
Theorem X7_Configure_makes_admins (c : AllowListConfig) (state : StateDB) :
  (forall a : Address,
      In a (AllowListAdmins c) ->
      GetAllowListStatus (Configure c state) a = Admin)
  /\ (forall key : Hash,
        (forall a : Address,
            In a (AllowListAdmins c) -> CreateAddressKey a <> key) ->
        GetState (Configure c state) ModifyAllowListAddress key
        = GetState state ModifyAllowListAddress key).
Proof.
  destruct c as [t admins]. simpl. split.
  - intros a Hin. now apply Configure_admin_status.
  - intros key. revert state.
    induction admins as [|adminAddr admins IH]; intros state Hother.
    + reflexivity.
    + rewrite Configure_cons, IH by (intros a Hin; apply Hother; now right).
      apply GetState_SetState_ne.
      intros Heq. injection Heq as Hkey.
      now apply (Hother adminAddr (or_introl eq_refl)).
Qed.

(** Two writes of Admin can be exchanged. *)
Lemma SetState_Admin_swap (state : StateDB) (key key' : Hash) :
  SetState (SetState state ModifyAllowListAddress key Admin)
    ModifyAllowListAddress key' Admin
  = SetState (SetState state ModifyAllowListAddress key' Admin)
      ModifyAllowListAddress key Admin.
Proof.
  unfold SetState. destruct (decide (key = key')) as [->|Hne].
  - reflexivity.
  - apply insert_insert_ne. congruence.
Qed.

Lemma Configure_Permutation (t t' : Z) (admins admins' : list Address)
    (state : StateDB) :
  Permutation admins admins' ->
  Configure (mkAllowListConfig t admins) state
  = Configure (mkAllowListConfig t' admins') state.
Proof.
  intros Hperm. revert state.
  induction Hperm as [|a l l' _ IH|a b l|l l' l'' _ IH _ IH']; intros state.
  - reflexivity.
  - rewrite !Configure_cons. apply IH.
  - rewrite !Configure_cons. rewrite SetState_Admin_swap. reflexivity.
  - rewrite IH. apply IH'.
Qed.

(** [Configure] changes nothing when its admins already hold Admin. *)
Lemma Configure_already_admins (t : Z) (admins : list Address) (state : StateDB) :
  (forall a : Address,
      In a admins ->
      state !! (ModifyAllowListAddress, CreateAddressKey a) = @Some Hash Admin) ->
  Configure (mkAllowListConfig t admins) state = state.
Proof.
  induction admins as [|adminAddr admins IH]; intros Hall.
  - reflexivity.
  - rewrite Configure_cons. unfold SetState.
    rewrite insert_id by (apply Hall; now left).
    apply IH. intros a Hin. apply Hall. now right.
Qed.

(** X8: the database after [Configure] depends neither on the order of
    [AllowListAdmins] nor on repetitions in it, and applying the same
    configuration a second time changes nothing. *)
Theorem X8_Configure_order_and_repetition
    (c c' : AllowListConfig) (state : StateDB) :
  (Permutation (AllowListAdmins c) (AllowListAdmins c') ->
   Configure c state = Configure c' state)
  /\ (forall (a : Address) (t : Z),
        In a (AllowListAdmins c) ->
        Configure (mkAllowListConfig t (a :: AllowListAdmins c)) state
        = Configure c state)
  /\ Configure c (Configure c state) = Configure c state.
Proof.
  destruct c as [t admins], c' as [t' admins']. simpl.
  split; [apply Configure_Permutation|]. split.
  - intros a t0 Hin.
    rewrite (Configure_Permutation t0 t (a :: admins) (admins ++ [a]))
      by (apply Permutation_cons_append).
    rewrite Configure_app.
    apply Configure_already_admins. intros a' [<-|[]].
    now apply Configure_lookup_admin.
  - apply Configure_already_admins. intros a Hin.
    now apply Configure_lookup_admin.
Qed.

(** X9: an address listed in [AllowListAdmins] can modify the allow list
    right after [Configure]: its call on a packed target and valid role, with
    sufficient gas and outside read-only mode, returns the empty output and
    no error, and the target then has that role. *)
Theorem X9_configured_admin_can_modify
    (c : AllowListConfig) (state : StateDB) (a addr target : Address)
    (role : AllowListRole) (suppliedGas : Z) :
  In a (AllowListAdmins c) ->
  Valid role = true ->
  uint64_range suppliedGas ->
  ModifyAllowListGasCost <= suppliedGas ->
  fst (modifyAllowListPrecompile_Run (Configure c state) a addr
         (Bytes target ++ Bytes role) suppliedGas false)
  = mkRunResult (Some []) (suppliedGas - ModifyAllowListGasCost) None
  /\ GetAllowListStatus
       (snd (modifyAllowListPrecompile_Run (Configure c state) a addr
               (Bytes target ++ Bytes role) suppliedGas false))
       target
     = role.
Proof.
  intros Hin Hvalid Hrange Hgas.
  rewrite modify_Run_success; try assumption.
  - split; [reflexivity | apply GetAllowListStatus_set_eq].
  - destruct c as [t admins]. now apply Configure_admin_status.
Qed.

End Configuration.

Section Sequences.
Context `{PrecompileParams}.

(** X10: Read Role sees what Modify Role wrote: after an admin's successful
    call for a target and a valid role, a read of the target by any caller,
    with sufficient gas, outputs the bytes of that role and leaves the
    database as the modify call left it. *)
Theorem X10_read_after_modify
    (evm : StateDB) (callerAddr addr target reader addr' : Address)
    (role : AllowListRole) (suppliedGas readGas : Z) (readOnly : bool) :
  GetAllowListStatus evm callerAddr = Admin ->
  Valid role = true ->
  uint64_range suppliedGas ->
  ModifyAllowListGasCost <= suppliedGas ->
  uint64_range readGas ->
  ReadAllowListGasCost <= readGas ->
  readAllowListPrecompile_Run
    (snd (modifyAllowListPrecompile_Run evm callerAddr addr
            (Bytes target ++ Bytes role) suppliedGas false))
    reader addr' (Bytes target) readGas readOnly
  = (mkRunResult (Some (Bytes role)) (readGas - ReadAllowListGasCost) None,
     snd (modifyAllowListPrecompile_Run evm callerAddr addr
            (Bytes target ++ Bytes role) suppliedGas false)).
Proof.
  intros Hadmin Hvalid Hrange Hgas Hrange' Hgas'.
  rewrite modify_Run_success by assumption. simpl.
  rewrite read_Run_enough_gas by assumption. simpl.
  rewrite bool_decide_eq_true_2 by apply length_Bytes. simpl.
  unfold BytesToAddress. rewrite SetBytes_Bytes.
  now rewrite GetAllowListStatus_set_eq.
Qed.

(** Writing twice the same status for the same address is writing it once. *)
Lemma setAllowListStatus_twice (state : StateDB) (address : Address) (status : Hash) :
  setAllowListStatus (setAllowListStatus state address status) address status
  = setAllowListStatus state address status.
Proof. unfold setAllowListStatus, SetState. apply insert_insert_eq. Qed.

(** X11: repeating a Modify Role call with the same arguments leaves the
    database as the first call left it, whether the calls succeed or fail
    (the second call fails when the caller has just removed its own admin
    role, and then writes nothing). *)
Theorem X11_modify_twice_same_state
    (evm : StateDB) (callerAddr addr : Address) (input : list byte)
    (suppliedGas : Z) (readOnly : bool) :
  snd (modifyAllowListPrecompile_Run
         (snd (modifyAllowListPrecompile_Run evm callerAddr addr input
                 suppliedGas readOnly))
         callerAddr addr input suppliedGas readOnly)
  = snd (modifyAllowListPrecompile_Run evm callerAddr addr input
           suppliedGas readOnly).
Proof.
  destruct (modify_Run_cases evm callerAddr addr input suppliedGas readOnly)
    as [(e & _ & _ & Hst) | (a & s & Hu & _ & _ & _ & _ & Hst)];
    rewrite Hst.
  - exact Hst.
  - destruct (modify_Run_cases (setAllowListStatus evm a s) callerAddr addr
                input suppliedGas readOnly)
      as [(e & _ & _ & Hst') | (a' & s' & Hu' & _ & _ & _ & _ & Hst')];
      rewrite Hst'.
    + reflexivity.
    + rewrite Hu in Hu'. injection Hu' as <- <-.
      apply setAllowListStatus_twice.
Qed.

(** X12: callers that are not admins cannot change the database: a sequence
    of Modify Role calls whose callers have a stored role other than Admin
    at the start, with any inputs, gas and flags, interleaved with Read Role
    calls, leaves the database exactly as it was.  In particular, when no
    address has the role Admin, no sequence of calls changes anything. *)
Theorem X12_non_admins_change_nothing (state : StateDB) (ops : list operation) :
  Forall (unprivileged state) ops ->
  fold_left run_operation ops state = state.
Proof.
  induction 1 as [|op ops Hop _ IH]; simpl.
  - reflexivity.
  - assert (Hstep : run_operation state op = state).
    { destruct op; simpl in *.
      - destruct Hop.
      - now apply modify_Run_not_admin_state.
      - apply read_Run_state. }
    rewrite Hstep. exact IH.
Qed.

(** X13: an admin can remove its own admin role, and is then locked out:
    after its successful call that gives itself a valid role other than
    Admin, every further Modify Role call it makes, with sufficient gas and
    outside read-only mode, fails as unauthorized and writes nothing. *)
Theorem X13_self_demotion_locks_out
    (evm : StateDB) (callerAddr addr addr' : Address) (role : AllowListRole)
    (input' : list byte) (suppliedGas suppliedGas' : Z) :
  GetAllowListStatus evm callerAddr = Admin ->
  Valid role = true ->
  role <> Admin ->
  uint64_range suppliedGas ->
  ModifyAllowListGasCost <= suppliedGas ->
  uint64_range suppliedGas' ->
  ModifyAllowListGasCost <= suppliedGas' ->
  let demoted :=
    snd (modifyAllowListPrecompile_Run evm callerAddr addr
           (Bytes callerAddr ++ Bytes role) suppliedGas false) in
  err (fst (modifyAllowListPrecompile_Run evm callerAddr addr
              (Bytes callerAddr ++ Bytes role) suppliedGas false)) = None
  /\ GetAllowListStatus demoted callerAddr = role
  /\ modifyAllowListPrecompile_Run demoted callerAddr addr' input'
       suppliedGas' false
     = (mkRunResult None (suppliedGas' - ModifyAllowListGasCost)
          (Some (CallerCannotModify callerAddr)), demoted).
Proof.
  intros Hadmin Hvalid Hrole Hrange Hgas Hrange' Hgas'.
  rewrite modify_Run_success by assumption. simpl.
  split; [reflexivity|].
  split; [apply GetAllowListStatus_set_eq|].
  rewrite modify_Run_enough_gas by assumption. simpl.
  rewrite GetAllowListStatus_set_eq.
  assert (Hna : IsAdmin role = false).
  { destruct (IsAdmin role) eqn:Hr; [|reflexivity].
    apply IsAdmin_spec in Hr. contradiction. }
  now rewrite Hna.
Qed.

(** X15: a grant or a revocation takes effect at once: after an admin's
    successful call that gives a target a valid role, a well-formed Modify
    Role call made by that target, with sufficient gas and outside read-only
    mode, returns no error exactly when the role it was given is Admin. *)
Theorem X15_grant_and_revoke_take_effect
    (evm : StateDB) (callerAddr addr target addr' target' : Address)
    (role role' : AllowListRole) (suppliedGas suppliedGas' : Z) :
  GetAllowListStatus evm callerAddr = Admin ->
  Valid role = true ->
  Valid role' = true ->
  uint64_range suppliedGas ->
  ModifyAllowListGasCost <= suppliedGas ->
  uint64_range suppliedGas' ->
  ModifyAllowListGasCost <= suppliedGas' ->
  err (fst (modifyAllowListPrecompile_Run
              (snd (modifyAllowListPrecompile_Run evm callerAddr addr
                      (Bytes target ++ Bytes role) suppliedGas false))
              target addr' (Bytes target' ++ Bytes role') suppliedGas' false))
  = None
  <-> role = Admin.
Proof.
  intros Hadmin Hvalid Hvalid' Hrange Hgas Hrange' Hgas'.
  rewrite (modify_Run_success evm callerAddr addr target role suppliedGas)
    by assumption.
  simpl.
  rewrite modify_Run_enough_gas by assumption. simpl.
  rewrite GetAllowListStatus_set_eq.
  destruct (IsAdmin role) eqn:Hr; simpl.
  - apply IsAdmin_spec in Hr.
    rewrite UnpackModifyAllowList_packed, Hvalid'. simpl.
    split; [intros _; exact Hr | reflexivity].
  - split; [discriminate|].
    intros Heq. apply IsAdmin_spec in Heq. congruence.
Qed.

(** One operation writes under the allow list's contract address only. *)
Lemma run_operation_other_contract (state : StateDB) (op : operation)
    (contract : Address) (key : Hash) :
  contract <> ModifyAllowListAddress ->
  GetState (run_operation state op) contract key = GetState state contract key.
Proof.
  intros Hother.
  assert (Hset : forall (st : StateDB) (k v : Hash),
             GetState (SetState st ModifyAllowListAddress k v) contract key
             = GetState st contract key).
  { intros st k v. apply GetState_SetState_ne. congruence. }
  destruct op as [c | callerAddr addr input gas ro | callerAddr addr input gas ro];
    simpl.
  - destruct c as [t admins]. revert state.
    induction admins as [|adminAddr admins IH]; intros state.
    + reflexivity.
    + change (Configure (mkAllowListConfig t (adminAddr :: admins)) state)
        with (Configure (mkAllowListConfig t admins)
                (SetState state ModifyAllowListAddress
                   (CreateAddressKey adminAddr) Admin)).
      rewrite IH. apply Hset.
  - destruct (modify_Run_cases state callerAddr addr input gas ro)
      as [(e & _ & _ & ->) | (a & s & _ & _ & _ & _ & _ & ->)].
    + reflexivity.
    + apply Hset.
  - now rewrite read_Run_state.
Qed.

(** X14: the allow list never touches the storage of another contract: after
    any sequence of Configure, Modify Role and Read Role calls, every slot
    under a contract address other than [ModifyAllowListAddress] holds what
    it held before. *)
Theorem X14_other_contracts_untouched
    (state : StateDB) (ops : list operation) (contract : Address) (key : Hash) :
  contract <> ModifyAllowListAddress ->
  GetState (fold_left run_operation ops state) contract key
  = GetState state contract key.
Proof.
  intros Hother. revert state.
  induction ops as [|op ops IH]; intros state; simpl.
  - reflexivity.
  - rewrite IH. now apply run_operation_other_contract.
Qed.

End Sequences.

(** ** The further properties on sample values *)

(** Unpacking the packed pair ([sample_target], Deployer). *)
Lemma X1_witness :
  UnpackModifyAllowList (Bytes sample_target ++ Bytes Deployer)
  = Ok (sample_target, Deployer).
Proof.
  apply (proj1 (X1_pack_unpack_inverse sample_target Deployer
                  (Bytes sample_target ++ Bytes Deployer))).
  vm_compute. reflexivity.
Defined.

(** One input, packed twice. *)
Lemma X2_witness :
  sample_target = sample_target /\ Deployer = Deployer
  /\ length (Bytes sample_target ++ Bytes Deployer) = modifyAllowListInputLength.
Proof.
  apply (X2_pack_injective sample_target sample_target Deployer Deployer
           (Bytes sample_target ++ Bytes Deployer));
    vm_compute; reflexivity.
Defined.

(** Admin can deploy. *)
Lemma X3_witness : CanDeploy Admin = true.
Proof.
  apply (proj1 (X3_role_capabilities_nested Admin)). vm_compute. reflexivity.
Defined.

(** The seeded admin's call for ([sample_target], Deployer) has no error. *)
Lemma X4_witness :
  err (fst (modifyAllowListPrecompile_Run (H := sample_params) sample_state
              sample_admin sample_admin
              (Bytes sample_target ++ Bytes Deployer) 30000 false))
  = None.
Proof.
  assert (Hadmin : GetAllowListStatus (H := sample_params) sample_state
                     sample_admin = Admin) by (vm_compute; reflexivity).
  assert (Hgas : ModifyAllowListGasCost (PrecompileParams := sample_params)
                 <= 30000) by uint64_side.
  apply (proj2 (proj1 (X4_modify_succeeds_iff (H := sample_params)
                         sample_state sample_admin sample_admin
                         (Bytes sample_target ++ Bytes Deployer) 30000 false))).
  split; [exact Hgas|]. split; [reflexivity|]. split; [exact Hadmin|].
  exists sample_target, Deployer. split; reflexivity.
Defined.

(** A read of twenty bytes with the exact gas has no error. *)
Lemma X5_witness :
  err (fst (readAllowListPrecompile_Run (H := sample_params) sample_state
              sample_other sample_other (Bytes sample_target) 5000 true))
  = None.
Proof.
  assert (Hgas : ReadAllowListGasCost (PrecompileParams := sample_params)
                 <= 5000) by uint64_side.
  apply (proj2 (proj1 (X5_read_succeeds_iff (H := sample_params)
                         sample_state sample_other sample_other
                         (Bytes sample_target) 5000 true))).
  split; [exact Hgas | vm_compute; reflexivity].
Defined.

(** One unit of gas short of [RequiredGas]. *)
Lemma X6_witness :
  exists e,
    err (fst (modifyAllowListPrecompile_Run (H := sample_params) sample_state
                sample_admin sample_admin [] 19999 false)) = Some e
    /\ kind_of e = InsufficientGas.
Proof.
  apply (proj2 (proj1 (X6_required_gas_is_the_threshold (H := sample_params)
                         sample_state sample_admin sample_admin [] 19999 false))).
  vm_compute. reflexivity.
Defined.

(** The second of two configured admins is an admin. *)
Lemma X7_witness :
  GetAllowListStatus (H := sample_params)
    (Configure (H := sample_params)
       (mkAllowListConfig 0 [sample_admin; sample_other]) ∅)
    sample_other
  = Admin.
Proof.
  apply (proj1 (X7_Configure_makes_admins (H := sample_params)
                  (mkAllowListConfig 0 [sample_admin; sample_other]) ∅)).
  right. left. reflexivity.
Defined.

(** Two admins in either order. *)
Lemma X8_witness :
  Configure (H := sample_params)
    (mkAllowListConfig 0 [sample_admin; sample_other]) ∅
  = Configure (H := sample_params)
      (mkAllowListConfig 1 [sample_other; sample_admin]) ∅.
Proof.
  apply (proj1 (X8_Configure_order_and_repetition (H := sample_params)
                  (mkAllowListConfig 0 [sample_admin; sample_other])
                  (mkAllowListConfig 1 [sample_other; sample_admin]) ∅)).
  apply perm_swap.
Defined.

(** A configured admin makes [sample_target] a deployer. *)
Lemma X9_witness :
  GetAllowListStatus (H := sample_params)
    (snd (modifyAllowListPrecompile_Run (H := sample_params)
            (Configure (H := sample_params)
               (mkAllowListConfig 0 [sample_admin]) ∅)
            sample_admin sample_admin
            (Bytes sample_target ++ Bytes Deployer) 30000 false))
    sample_target
  = Deployer.
Proof.
  assert (Hrange : uint64_range 30000) by uint64_side.
  assert (Hgas : ModifyAllowListGasCost (PrecompileParams := sample_params)
                 <= 30000) by uint64_side.
  apply (proj2 (X9_configured_admin_can_modify (H := sample_params)
                  (mkAllowListConfig 0 [sample_admin]) ∅
                  sample_admin sample_admin sample_target Deployer 30000
                  (or_introl eq_refl) eq_refl Hrange Hgas)).
Defined.

(** Anyone reads the role that the seeded admin has just written. *)
Lemma X10_witness :
  ret (fst (readAllowListPrecompile_Run (H := sample_params)
              (snd (modifyAllowListPrecompile_Run (H := sample_params)
                      sample_state sample_admin sample_admin
                      (Bytes sample_target ++ Bytes Deployer) 30000 false))
              sample_other sample_other (Bytes sample_target) 5000 true))
  = Some (Bytes Deployer).
Proof.
  assert (Hadmin : GetAllowListStatus (H := sample_params) sample_state
                     sample_admin = Admin) by (vm_compute; reflexivity).
  assert (Hrange : uint64_range 30000) by uint64_side.
  assert (Hgas : ModifyAllowListGasCost (PrecompileParams := sample_params)
                 <= 30000) by uint64_side.
  assert (Hrange' : uint64_range 5000) by uint64_side.
  assert (Hgas' : ReadAllowListGasCost (PrecompileParams := sample_params)
                  <= 5000) by uint64_side.
  rewrite (X10_read_after_modify (H := sample_params) sample_state
             sample_admin sample_admin sample_target sample_other sample_other
             Deployer 30000 5000 true Hadmin eq_refl Hrange Hgas Hrange' Hgas').
  reflexivity.
Defined.

(** An address without a role calls the modify precompile, then reads. *)
Lemma X12_witness :
  fold_left (run_operation (H := sample_params))
    [OpModify sample_other sample_other
       (Bytes sample_other ++ Bytes Admin) 30000 false;
     OpRead sample_other sample_other (Bytes sample_other) 5000 false]
    sample_state
  = sample_state.
Proof.
  assert (Hna : GetAllowListStatus (H := sample_params) sample_state
                  sample_other <> Admin).
  { intros Heq. apply (f_equal vec_to_list) in Heq.
    vm_compute in Heq. discriminate. }
  apply (X12_non_admins_change_nothing (H := sample_params)).
  constructor; [exact Hna|]. constructor; [exact I|]. constructor.
Defined.

(** The seeded admin makes itself a deployer and is then refused. *)
Lemma X13_witness :
  fails_with
    (fst (modifyAllowListPrecompile_Run (H := sample_params)
            (snd (modifyAllowListPrecompile_Run (H := sample_params)
                    sample_state sample_admin sample_admin
                    (Bytes sample_admin ++ Bytes Deployer) 30000 false))
            sample_admin sample_admin
            (Bytes sample_admin ++ Bytes Admin) 30000 false))
    Unauthorized.
Proof.
  assert (Hadmin : GetAllowListStatus (H := sample_params) sample_state
                     sample_admin = Admin) by (vm_compute; reflexivity).
  assert (Hrole : Deployer <> Admin).
  { intros Heq. apply (f_equal vec_to_list) in Heq. discriminate. }
  assert (Hrange : uint64_range 30000) by uint64_side.
  assert (Hgas : ModifyAllowListGasCost (PrecompileParams := sample_params)
                 <= 30000) by uint64_side.
  destruct (X13_self_demotion_locks_out (H := sample_params) sample_state
              sample_admin sample_admin sample_admin Deployer
              (Bytes sample_admin ++ Bytes Admin) 30000 30000
              Hadmin eq_refl Hrole Hrange Hgas Hrange Hgas)
    as (_ & _ & Hrun).
  rewrite Hrun. unfold fails_with. simpl. eauto.
Defined.

(** A slot of another contract, across a configuration and a call. *)
Lemma X14_witness :
  GetState
    (fold_left (run_operation (H := sample_params))
       [OpConfigure (mkAllowListConfig 0 [sample_admin]);
        OpModify sample_admin sample_admin
          (Bytes sample_target ++ Bytes Deployer) 30000 false]
       ∅)
    sample_other (CreateAddressKey sample_admin)
  = GetState ∅ sample_other (CreateAddressKey sample_admin).
Proof.
  apply (X14_other_contracts_untouched (H := sample_params)).
  intros Heq. apply (f_equal vec_to_list) in Heq. discriminate.
Defined.

(** The seeded admin makes [sample_target] an admin, who then modifies. *)
Lemma X15_witness :
  err (fst (modifyAllowListPrecompile_Run (H := sample_params)
              (snd (modifyAllowListPrecompile_Run (H := sample_params)
                      sample_state sample_admin sample_admin
                      (Bytes sample_target ++ Bytes Admin) 30000 false))
              sample_target sample_target
              (Bytes sample_other ++ Bytes Deployer) 30000 false))
  = None.
Proof.
  assert (Hadmin : GetAllowListStatus (H := sample_params) sample_state
                     sample_admin = Admin) by (vm_compute; reflexivity).
  assert (Hrange : uint64_range 30000) by uint64_side.
  assert (Hgas : ModifyAllowListGasCost (PrecompileParams := sample_params)
                 <= 30000) by uint64_side.
  apply (proj2 (X15_grant_and_revoke_take_effect (H := sample_params)
                  sample_state sample_admin sample_admin sample_target
                  sample_target sample_other Admin Deployer 30000 30000
                  Hadmin eq_refl eq_refl Hrange Hgas Hrange Hgas)).
  reflexivity.
Defined.
